(** * Data drift report Lambda: a shallow embedding of [app.py]

    The handler of [DataDriftReportLambdaversion6/app.py] is glue code: it
    reads two CSV objects from S3, hands them to Evidently, stores the HTML
    report in S3 and mails it through SES.  Every one of these steps is a
    call into a library or a remote service.  The embedding therefore keeps
    the control flow of the Python functions and turns each outside call into
    a node of a small program tree; an [oracle] plays the outside world and
    decides, call by call, whether the call returns or raises.  Running a
    program against an oracle yields the list of calls it really made (with
    their answers) and the outcome of the handler. *)

From Stdlib Require Import String List Bool ZArith Lia.
Import ListNotations.
Open Scope string_scope.

(** ** Python values *)

Definition bytes := list Byte.byte.

(** A raised Python exception: its class name and its message. *)
Record exn : Type := { exn_class : string; exn_msg : string }.

(** JSON-serialisable Python values (dicts keep insertion order). *)
#[local] Set Warnings "-register-all".
Inductive json : Type :=
| JNull
| JNum (z : Z)
| JStr (s : string)
| JList (l : list json)
| JDict (d : list (string * json)).

(** The text produced by [json.dumps]; the serialiser itself is the standard
    library's, so the text is kept as the value it was produced from. *)
Inductive json_text : Type :=
| json_dumps (j : json).

(** The dict returned by [lambda_handler]. *)
Record response : Type := { statusCode : Z; body : json_text }.

(** ** The trigger event

    [event['Records']] is a list of S3 notification records; the handler
    reads [record['s3']['bucket']['name']] and [record['s3']['object']['key']]
    of each.  An S3 notification always carries both, so a record is kept as
    these two strings. *)
Record s3_record : Type := { s3_bucket_name : string; s3_object_key : string }.
Record s3_event : Type := { Records : list s3_record }.

(** ** MIME messages ([email.mime])

    Headers are kept in the order in which the handler sets them; those the
    library adds by itself ([Content-Type], [MIME-Version]) are left out.  A
    payload that went through [encoders.encode_base64] is tagged [Base64] and
    keeps the octets it encodes. *)
Inductive payload : Type :=
| Text (s : string)
| Octets (b : bytes)
| Base64 (b : bytes).

Record mime_part : Type :=
  { maintype : string;
    subtype : string;
    part_payload : option payload;
    part_headers : list (string * string) }.

Record mime_msg : Type :=
  { headers : list (string * string);
    parts : list mime_part }.

Definition MIMEMultipart : mime_msg := {| headers := []; parts := [] |}.

(** [msg[name] = value] *)
Definition setitem (msg : mime_msg) (name value : string) : mime_msg :=
  {| headers := headers msg ++ [(name, value)]; parts := parts msg |}.

(** [msg[name]]: the first header of that name, [None] when there is none
    (the handler only asks for names it has set, spelled alike). *)
Definition getitem (msg : mime_msg) (name : string) : option string :=
  match find (fun h => String.eqb (fst h) name) (headers msg) with
  | Some h => Some (snd h)
  | None => None
  end.

Definition attach (msg : mime_msg) (p : mime_part) : mime_msg :=
  {| headers := headers msg; parts := parts msg ++ [p] |}.

Definition MIMEText (text sub : string) : mime_part :=
  {| maintype := "text"; subtype := sub;
     part_payload := Some (Text text); part_headers := [] |}.

Definition MIMEBase (main sub : string) : mime_part :=
  {| maintype := main; subtype := sub;
     part_payload := None; part_headers := [] |}.

Definition set_payload (p : mime_part) (b : bytes) : mime_part :=
  {| maintype := maintype p; subtype := subtype p;
     part_payload := Some (Octets b); part_headers := part_headers p |}.

Definition add_header (p : mime_part) (name value : string) : mime_part :=
  {| maintype := maintype p; subtype := subtype p;
     part_payload := part_payload p;
     part_headers := part_headers p ++ [(name, value)] |}.

(** [encoders.encode_base64(part)]: re-encodes the payload and records the
    transfer encoding. *)
Definition encode_base64 (p : mime_part) : mime_part :=
  let p' :=
    {| maintype := maintype p; subtype := subtype p;
       part_payload :=
         match part_payload p with
         | Some (Octets b) => Some (Base64 b)
         | other => other
         end;
       part_headers := part_headers p |} in
  add_header p' "Content-Transfer-Encoding" "base64".

(** The octets a part carries, whatever its transfer encoding. *)
Definition attached_bytes (p : mime_part) : option bytes :=
  match part_payload p with
  | Some (Octets b) | Some (Base64 b) => Some b
  | _ => None
  end.

(** The [Content-Disposition] of a part, and the parts of a message that
    carry one: its attachments. *)
Definition disposition (p : mime_part) : option string :=
  match find (fun h => String.eqb (fst h) "Content-Disposition") (part_headers p) with
  | Some h => Some (snd h)
  | None => None
  end.

Definition attachments (msg : mime_msg) : list mime_part :=
  filter (fun p => match disposition p with Some _ => true | None => false end)
         (parts msg).

(** ** Module constants of [app.py] *)

Definition CUR_DATA_BUCKET : string := "dq6-cur-data-s3".
Definition REF_DATA_BUCKET : string := "dq6-ref-data-s3".
Definition REPORTS_BUCKET : string := "dq6-reports-s3".

(** Evidently metrics; the handler only ever builds [DataDriftPreset()],
    with no argument. *)
Inductive metric : Type :=
| DataDriftPreset.

(** The outside calls, named after the operation that is called. *)
Inductive op : Type :=
| get_object | read_csv | report_run | get_html | put_object | send_raw_email.

(** How a run ends: with a returned value or with an exception that nobody
    caught ([app.py] has no [try]). *)
Inductive outcome (A : Type) : Type :=
| Returned (a : A)
| Raised (e : exn).
Arguments Returned {A} a.
Arguments Raised {A} e.

Section Pipeline.

(** What the libraries own: the body of an S3 response, pandas' data frame
    and Evidently's report object are opaque to the handler, which only
    passes them on. *)
Variables StreamingBody DataFrame Report : Type.

(** [str.encode('utf-8')]; it raises [UnicodeEncodeError] on a string that
    holds a lone surrogate. *)
Variable encode_utf8 : string -> exn + bytes.

(** The Lambda context object; the handler never looks at it. *)
Variable Context : Type.

(** A call with its arguments, indexed by the type of what it returns. *)
Inductive call : Type -> Type :=
| S3GetObject (Bucket Key : string) : call StreamingBody
| PdReadCsv (Body : StreamingBody) : call DataFrame
| ReportRun (metrics : list metric) (reference_data current_data : DataFrame)
  : call Report
| ReportGetHtml (report : Report) : call string
| S3PutObject (Bucket Key Body ContentType : string) : call unit
| SesSendRawEmail (Source : option string) (Destinations : list (option string))
                  (RawMessage : mime_msg) : call json.

Definition op_of {B} (c : call B) : op :=
  match c with
  | S3GetObject _ _ => get_object
  | PdReadCsv _ => read_csv
  | ReportRun _ _ _ => report_run
  | ReportGetHtml _ => get_html
  | S3PutObject _ _ _ _ => put_object
  | SesSendRawEmail _ _ _ => send_raw_email
  end.

(** Programs: the handler's code with the outside calls left open.
    [Print] and [Uuid4] cannot fail; a [Call] may return or raise. *)
Inductive prog (A : Type) : Type :=
| Ret (a : A)
| Raise (e : exn)
| Print (line : string) (k : prog A)
| Uuid4 (k : string -> prog A)
| Call {B : Type} (c : call B) (k : B -> prog A).

Arguments Ret {A} a.
Arguments Raise {A} e.
Arguments Print {A} line k.
Arguments Uuid4 {A} k.
Arguments Call {A B} c k.

Fixpoint bind {A B} (p : prog A) (f : A -> prog B) : prog B :=
  match p with
  | Ret a => f a
  | Raise e => Raise e
  | Print s k => Print s (bind k f)
  | Uuid4 k => Uuid4 (fun u => bind (k u) f)
  | Call c k => Call c (fun b => bind (k b) f)
  end.

Definition call_ {B} (c : call B) : prog B := Call c Ret.
Definition print (line : string) : prog unit := Print line (Ret tt).
Definition uuid4_hex : prog string := Uuid4 Ret.
Definition lift {A} (r : exn + A) : prog A :=
  match r with
  | inl e => Raise e
  | inr a => Ret a
  end.

Notation "x <- p ;; q" := (bind p (fun x => q))
  (at level 61, p at next level, right associativity).
Notation "p ;; q" := (bind p (fun _ => q))
  (at level 61, right associativity).

(** *** The functions of [app.py] *)

Definition load_data_from_s3 (bucket key : string) : prog DataFrame :=
  response <- call_ (S3GetObject bucket key) ;;
  data <- call_ (PdReadCsv response) ;;
  Ret data.

Definition generate_drift_report (reference_data current_data : DataFrame)
  : prog Report :=
  report <- call_ (ReportRun [DataDriftPreset] reference_data current_data) ;;
  Ret report.

Definition save_report_to_s3 (report : Report) (bucket key : string)
  : prog string :=
  html_report <- call_ (ReportGetHtml report) ;;
  call_ (S3PutObject bucket key html_report "text/html") ;;
  Ret html_report.

Definition send_email_with_attachment
    (to_email subject body : string) (attachment : bytes)
    (attachment_name : string) : prog json :=
  let msg := MIMEMultipart in
  let msg := setitem msg "Subject" subject in
  let msg := setitem msg "From" "sagarpatiler@gmail.com" in
  let msg := setitem msg "To" to_email in
  let msg := attach msg (MIMEText body "plain") in
  let part := MIMEBase "application" "octet-stream" in
  let part := set_payload part attachment in
  let part := encode_base64 part in
  let part := add_header part "Content-Disposition"
                ("attachment; filename=" ++ attachment_name) in
  let msg := attach msg part in
  response <- call_ (SesSendRawEmail (getitem msg "From")
                                     [getitem msg "To"] msg) ;;
  Ret response.

(** The two f-strings that are printed and the one that names the report. *)
Definition processing_message (object_key bucket_name : string) : string :=
  "Processing file: " ++ object_key ++ " from bucket: " ++ bucket_name.

Definition skipping_message (object_key : string) : string :=
  "File " ++ object_key ++ " is not in the expected bucket ("
  ++ CUR_DATA_BUCKET ++ "), skipping.".

Definition report_key_name (hex : string) : string :=
  "data_drift_report_" ++ hex ++ ".html".

(** The body of the [if bucket_name == CUR_DATA_BUCKET] branch, up to and
    including its [return]. *)
Definition process_record (bucket_name object_key : string) : prog response :=
  print (processing_message object_key bucket_name) ;;
  let ref_data_key := "ref.csv" in
  reference_data <- load_data_from_s3 REF_DATA_BUCKET ref_data_key ;;
  current_data <- load_data_from_s3 bucket_name object_key ;;
  report <- generate_drift_report reference_data current_data ;;
  hex <- uuid4_hex ;;
  let report_key := report_key_name hex in
  html_report <- save_report_to_s3 report REPORTS_BUCKET report_key ;;
  attachment <- lift (encode_utf8 html_report) ;;
  email_response <- send_email_with_attachment
                      "sagarpatiler@gmail.com"
                      "Data Quality Report has been generated"
                      "Please find the attached Data Quality Report."
                      attachment
                      "data_quality_report.html" ;;
  Ret {| statusCode := 200;
         body := json_dumps (JDict
           [("message", JStr "Data drift detected, report generated, saved to S3, and emailed successfully");
            ("report_key", JStr report_key);
            ("email_response", email_response)]) |}.

Definition no_files_response : response :=
  {| statusCode := 200;
     body := json_dumps (JDict
       [("message", JStr "No files processed from the dq6-cur-data-s3 bucket.")]) |}.

(** [for record in event['Records']: ...] followed by the final [return]. *)
Fixpoint handle_records (records : list s3_record) : prog response :=
  match records with
  | [] => Ret no_files_response
  | record :: rest =>
      let bucket_name := s3_bucket_name record in
      let object_key := s3_object_key record in
      if String.eqb bucket_name CUR_DATA_BUCKET then
        process_record bucket_name object_key
      else
        print (skipping_message object_key) ;;
        handle_records rest
  end.

Definition lambda_handler (event : s3_event) (context : Context)
  : prog response :=
  handle_records (Records event).

(** *** Running a program against the outside world *)

Inductive io_event : Type :=
| EvPrint (line : string)
| EvUuid4 (hex : string)
| EvCall {B : Type} (c : call B) (r : exn + B).

(** The outside world.  It sees what happened so far (latest first) and
    answers the next call, or hands out the next random UUID. *)
Record oracle : Type :=
  { answer : list io_event -> forall B, call B -> exn + B;
    next_uuid : list io_event -> string }.

(** [exec O h p] runs [p] after the history [h] (latest event first) and
    gives the events of [p] in the order they happened, with the outcome. *)
Fixpoint exec {A} (O : oracle) (h : list io_event) (p : prog A)
  : list io_event * outcome A :=
  match p with
  | Ret a => ([], Returned a)
  | Raise e => ([], Raised e)
  | Print s k =>
      let ev := EvPrint s in
      let (tr, r) := exec O (ev :: h) k in (ev :: tr, r)
  | Uuid4 k =>
      let u := next_uuid O h in
      let ev := EvUuid4 u in
      let (tr, r) := exec O (ev :: h) (k u) in (ev :: tr, r)
  | Call c k =>
      match answer O h _ c with
      | inl e => ([EvCall c (inl e)], Raised e)
      | inr b =>
          let ev := EvCall c (inr b) in
          let (tr, r) := exec O (ev :: h) (k b) in (ev :: tr, r)
      end
  end.

Definition trace_of {A} (O : oracle) (h : list io_event) (p : prog A)
  : list io_event := fst (exec O h p).
Definition outcome_of {A} (O : oracle) (h : list io_event) (p : prog A)
  : outcome A := snd (exec O h p).

(** *** What a trace shows *)

(** Every [get_object] call that was made: [(Bucket, Key)]. *)
Fixpoint gets (tr : list io_event) : list (string * string) :=
  match tr with
  | [] => []
  | EvCall (S3GetObject b k) _ :: tr' => (b, k) :: gets tr'
  | _ :: tr' => gets tr'
  end.

(** Every [put_object] call that was made, answered or not:
    [(Bucket, Key, Body, ContentType)]. *)
Fixpoint puts (tr : list io_event) : list (string * string * string * string) :=
  match tr with
  | [] => []
  | EvCall (S3PutObject b k body ct) _ :: tr' => (b, k, body, ct) :: puts tr'
  | _ :: tr' => puts tr'
  end.

(** The [put_object] calls that returned: what is in the store afterwards. *)
Fixpoint stored (tr : list io_event) : list (string * string * string * string) :=
  match tr with
  | [] => []
  | EvCall (S3PutObject b k body ct) (inr _) :: tr' =>
      (b, k, body, ct) :: stored tr'
  | _ :: tr' => stored tr'
  end.

(** Every [send_raw_email] call that was made:
    [(Source, Destinations, message)]. *)
Fixpoint sends (tr : list io_event)
  : list (option string * list (option string) * mime_msg) :=
  match tr with
  | [] => []
  | EvCall (SesSendRawEmail src dst msg) _ :: tr' => (src, dst, msg) :: sends tr'
  | _ :: tr' => sends tr'
  end.

(** The metric lists Evidently was run with. *)
Fixpoint analyses (tr : list io_event) : list (list metric) :=
  match tr with
  | [] => []
  | EvCall (ReportRun ms _ _) _ :: tr' => ms :: analyses tr'
  | _ :: tr' => analyses tr'
  end.

(** The UUIDs drawn. *)
Fixpoint uuids (tr : list io_event) : list string :=
  match tr with
  | [] => []
  | EvUuid4 u :: tr' => u :: uuids tr'
  | _ :: tr' => uuids tr'
  end.

(** The first call that raised, with what it raised. *)
Fixpoint failure (tr : list io_event) : option (op * exn) :=
  match tr with
  | [] => None
  | EvCall c (inl e) :: _ => Some (op_of c, e)
  | _ :: tr' => failure tr'
  end.

(** The calls made, in order. *)
Fixpoint calls (tr : list io_event) : list op :=
  match tr with
  | [] => []
  | EvCall c _ :: tr' => op_of c :: calls tr'
  | _ :: tr' => calls tr'
  end.

(** [load_data_from_s3] is the only caller of these two operations. *)
Definition loader_op (o : op) : bool :=
  match o with
  | get_object | read_csv => true
  | _ => false
  end.

Definition matches (record : s3_record) : bool :=
  String.eqb (s3_bucket_name record) CUR_DATA_BUCKET.

(** The line printed for a record that is skipped. *)
Definition skipped (record : s3_record) : io_event :=
  EvPrint (skipping_message (s3_object_key record)).

(** The lines printed, in order. *)
Fixpoint prints (tr : list io_event) : list string :=
  match tr with
  | [] => []
  | EvPrint line :: tr' => line :: prints tr'
  | _ :: tr' => prints tr'
  end.

(** What SES answered to the mails it accepted. *)
Fixpoint delivered (tr : list io_event) : list json :=
  match tr with
  | [] => []
  | EvCall (SesSendRawEmail _ _ _) (inr receipt) :: tr' => receipt :: delivered tr'
  | _ :: tr' => delivered tr'
  end.

(** Every call that raised, with what it raised. *)
Fixpoint failed (tr : list io_event) : list (op * exn) :=
  match tr with
  | [] => []
  | EvCall c (inl e) :: tr' => (op_of c, e) :: failed tr'
  | _ :: tr' => failed tr'
  end.

(** What [get_object] returned: [(Bucket, Key, body)]. *)
Fixpoint fetched (tr : list io_event) : list (string * string * StreamingBody) :=
  match tr with
  | [] => []
  | EvCall (S3GetObject b k) (inr body) :: tr' => (b, k, body) :: fetched tr'
  | _ :: tr' => fetched tr'
  end.

(** What [read_csv] made of which body. *)
Fixpoint parsed (tr : list io_event) : list (StreamingBody * DataFrame) :=
  match tr with
  | [] => []
  | EvCall (PdReadCsv body) (inr data) :: tr' => (body, data) :: parsed tr'
  | _ :: tr' => parsed tr'
  end.

(** The reports Evidently gave: [(reference_data, current_data, report)]. *)
Fixpoint analysed (tr : list io_event) : list (DataFrame * DataFrame * Report) :=
  match tr with
  | [] => []
  | EvCall (ReportRun _ r c) (inr report) :: tr' => (r, c, report) :: analysed tr'
  | _ :: tr' => analysed tr'
  end.

(** The HTML [get_html] gave for which report. *)
Fixpoint rendered (tr : list io_event) : list (Report * string) :=
  match tr with
  | [] => []
  | EvCall (ReportGetHtml report) (inr html) :: tr' => (report, html) :: rendered tr'
  | _ :: tr' => rendered tr'
  end.

(** The keys [put_object] was called with. *)
Definition put_keys (tr : list io_event) : list string :=
  map (fun p => snd (fst (fst p))) (puts tr).

(** The calls of one complete run of [process_record], in the order in which
    the source makes them. *)
Definition pipeline : list op :=
  [get_object; read_csv; get_object; read_csv;
   report_run; get_html; put_object; send_raw_email].

(** The dict a completed run returns. *)
Definition report_response (report_key : string) (email_response : json)
  : response :=
  {| statusCode := 200;
     body := json_dumps (JDict
       [("message", JStr "Data drift detected, report generated, saved to S3, and emailed successfully");
        ("report_key", JStr report_key);
        ("email_response", email_response)]) |}.

End Pipeline.

Arguments exec {StreamingBody DataFrame Report A} O h p.
Arguments trace_of {StreamingBody DataFrame Report A} O h p.
Arguments outcome_of {StreamingBody DataFrame Report A} O h p.
Arguments gets {StreamingBody DataFrame Report} tr.
Arguments puts {StreamingBody DataFrame Report} tr.
Arguments stored {StreamingBody DataFrame Report} tr.
Arguments sends {StreamingBody DataFrame Report} tr.
Arguments analyses {StreamingBody DataFrame Report} tr.
Arguments uuids {StreamingBody DataFrame Report} tr.
Arguments failure {StreamingBody DataFrame Report} tr.
Arguments calls {StreamingBody DataFrame Report} tr.
Arguments skipped {StreamingBody DataFrame Report} record.
Arguments process_record {StreamingBody DataFrame Report}
  encode_utf8 bucket_name object_key.
Arguments handle_records {StreamingBody DataFrame Report} encode_utf8 records.
Arguments lambda_handler {StreamingBody DataFrame Report}
  encode_utf8 {Context} event context.
Arguments generate_drift_report {StreamingBody DataFrame Report}
  reference_data current_data.
Arguments save_report_to_s3 {StreamingBody DataFrame Report} report bucket key.
Arguments load_data_from_s3 {StreamingBody DataFrame Report} bucket key.
Arguments answer {StreamingBody DataFrame Report} o h B c.
Arguments next_uuid {StreamingBody DataFrame Report} o h.
Arguments op_of {StreamingBody DataFrame Report B} c.
Arguments EvPrint {StreamingBody DataFrame Report} line.
Arguments EvUuid4 {StreamingBody DataFrame Report} hex.
Arguments EvCall {StreamingBody DataFrame Report B} c r.
Arguments S3GetObject {StreamingBody DataFrame Report} Bucket Key.
Arguments PdReadCsv {StreamingBody DataFrame Report} Body.
Arguments ReportRun {StreamingBody DataFrame Report} metrics reference_data current_data.
Arguments ReportGetHtml {StreamingBody DataFrame Report} report.
Arguments S3PutObject {StreamingBody DataFrame Report} Bucket Key Body ContentType.
Arguments SesSendRawEmail {StreamingBody DataFrame Report} Source Destinations RawMessage.
Arguments fetched {StreamingBody DataFrame Report} tr.
Arguments parsed {StreamingBody DataFrame Report} tr.
Arguments analysed {StreamingBody DataFrame Report} tr.
Arguments rendered {StreamingBody DataFrame Report} tr.
Arguments put_keys {StreamingBody DataFrame Report} tr.
Arguments prints {StreamingBody DataFrame Report} tr.
Arguments delivered {StreamingBody DataFrame Report} tr.
Arguments failed {StreamingBody DataFrame Report} tr.
Arguments send_email_with_attachment {StreamingBody DataFrame Report}
  to_email subject body attachment attachment_name.
Arguments processing_message : simpl never.
Arguments skipping_message : simpl never.
Arguments report_key_name : simpl never.

(** ** A small outside world

    To run the handler on concrete events the outside world is fixed as
    follows: S3 holds a few objects and answers [NoSuchKey] for any other key;
    [read_csv] rejects an empty body; Evidently, the store and SES answer
    every call, unless SES is set to refuse the mail.  Bodies, data frames
    and reports are carried as plain text. *)

(** UTF-8 of a string whose characters are the code points U+0000..U+00FF. *)
Definition utf8_of_char (a : Ascii.ascii) : bytes :=
  let n := Ascii.N_of_ascii a in
  if (n <? 128)%N then [Ascii.byte_of_ascii a]
  else [Ascii.byte_of_ascii (Ascii.ascii_of_N (192 + n / 64));
        Ascii.byte_of_ascii (Ascii.ascii_of_N (128 + n mod 64))].

Fixpoint utf8_of_string (s : string) : bytes :=
  match s with
  | EmptyString => []
  | String a rest => (utf8_of_char a ++ utf8_of_string rest)%list
  end.

Definition encode_latin1_as_utf8 (s : string) : exn + bytes :=
  inr (utf8_of_string s).

Record world : Type :=
  { objects : list (string * string * string);
    ses_refusal : option exn;
    uuid_hex : string }.

Definition no_such_key : exn :=
  {| exn_class := "NoSuchKey"; exn_msg := "The specified key does not exist." |}.

Definition empty_data_error : exn :=
  {| exn_class := "EmptyDataError"; exn_msg := "No columns to parse from file" |}.

Definition message_rejected : exn :=
  {| exn_class := "MessageRejected"; exn_msg := "Email address is not verified." |}.

Definition lookup_object (w : world) (bucket key : string) : exn + string :=
  match find (fun o => String.eqb (fst (fst o)) bucket && String.eqb (snd (fst o)) key)
             (objects w) with
  | Some o => inr (snd o)
  | None => inl no_such_key
  end.

Definition world_answer (w : world) (B : Type) (c : call string string string B)
  : exn + B :=
  match c in call _ _ _ B return exn + B with
  | S3GetObject bucket key => lookup_object w bucket key
  | PdReadCsv body =>
      if String.eqb body "" then inl empty_data_error else inr body
  | ReportRun _ reference_data current_data =>
      inr ("drift of [" ++ current_data ++ "] against [" ++ reference_data ++ "]")
  | ReportGetHtml report => inr ("<html>" ++ report ++ "</html>")
  | S3PutObject _ _ _ _ => inr tt
  | SesSendRawEmail _ _ _ =>
      match ses_refusal w with
      | Some e => inl e
      | None => inr (JDict [("MessageId", JStr "0100018b-0001")])
      end
  end.

Definition oracle_of (w : world) : oracle string string string :=
  {| answer := fun _ => world_answer w;
     next_uuid := fun _ => uuid_hex w |}.

(** The handler in this world; the Lambda context is taken to be a list of
    named settings, which is where a deployment could hand over values. *)
Definition settings := list (string * string).

Definition handler (event : s3_event) (context : settings)
  : prog string string string response :=
  lambda_handler encode_latin1_as_utf8 event context.

Definition upload (bucket key : string) : s3_record :=
  {| s3_bucket_name := bucket; s3_object_key := key |}.

Definition two_days : list (string * string * string) :=
  [("dq6-ref-data-s3", "ref.csv", "age=20,21,22,23");
   ("dq6-cur-data-s3", "day1.csv", "age=80,81,82,83");
   ("dq6-cur-data-s3", "day2.csv", "age=20,22,21,23")].

Definition healthy : world :=
  {| objects := two_days; ses_refusal := None;
     uuid_hex := "9f1c2d3e4b5a69788796a5b4c3d2e1f0" |}.

Definition ses_down : world :=
  {| objects := two_days; ses_refusal := Some message_rejected;
     uuid_hex := "9f1c2d3e4b5a69788796a5b4c3d2e1f0" |}.

Definition run (w : world) (event : s3_event) (context : settings)
  : list (io_event string string string) * outcome response :=
  exec (oracle_of w) [] (handler event context).

(** The current data set named by the event is not in the bucket. *)
Definition day3_missing : s3_event :=
  {| Records := [upload "dq6-cur-data-s3" "day3.csv"] |}.

(** Two uploads to the watched bucket delivered in one batch. *)
Definition burst : s3_event :=
  {| Records := [upload "dq6-cur-data-s3" "day1.csv";
                 upload "dq6-cur-data-s3" "day2.csv"] |}.

(** What a deployment might want to set from outside. *)
Definition wished : settings :=
  [("CUR_DATA_BUCKET", "uploads-eu"); ("RECIPIENT", "ops@example.com");
   ("REPORT_PREFIX", "drift/"); ("NUM_STATTEST_THRESHOLD", "0.1");
   ("DRIFT_SHARE", "0.3")].

Definition day1 : s3_event :=
  {| Records := [upload "dq6-cur-data-s3" "day1.csv"] |}.

(** The same world with the report store out of order: [put_object] raises,
    everything else answers as in [healthy]. *)
Definition service_unavailable : exn :=
  {| exn_class := "ServiceUnavailable"; exn_msg := "Please reduce your request rate." |}.

Definition store_down_answer (B : Type) (c : call string string string B)
  : exn + B :=
  match c in call _ _ _ B return exn + B with
  | S3GetObject bucket key => world_answer healthy _ (S3GetObject bucket key)
  | PdReadCsv body => world_answer healthy _ (PdReadCsv body)
  | ReportRun ms reference_data current_data =>
      world_answer healthy _ (ReportRun ms reference_data current_data)
  | ReportGetHtml report => world_answer healthy _ (ReportGetHtml report)
  | S3PutObject _ _ _ _ => inl service_unavailable
  | SesSendRawEmail src dst msg => world_answer healthy _ (SesSendRawEmail src dst msg)
  end.

Definition store_down : oracle string string string :=
  {| answer := fun _ => store_down_answer;
     next_uuid := fun _ => uuid_hex healthy |}.

(** [healthy] on a later invocation: another UUID is drawn. *)
Definition healthy_later : world :=
  {| objects := two_days; ses_refusal := None;
     uuid_hex := "0a1b2c3d4e5f60718293a4b5c6d7e8f9" |}.

(** * Properties of the handler *)

(** One step of a run: split on what the outside world answers next, or
    on what a fallible builtin gives. *)
Ltac answer_cases :=
  match goal with
  | |- context [answer ?O ?h ?B ?c] =>
      let e := fresh "e" in
      let v := fresh "v" in
      let E := fresh "Hanswer" in
      destruct (answer O h B c) as [e | v] eqn:E; simpl
  | |- context [lift _ _ _ ?r] =>
      let e := fresh "e" in
      let v := fresh "octets" in
      let E := fresh "Hencode" in
      destruct r as [e | v] eqn:E; simpl
  end.

Ltac run_record :=
  unfold trace_of, outcome_of, process_record; simpl; repeat answer_cases.

Section Properties.

Variables StreamingBody DataFrame Report : Type.
Variable encode_utf8 : string -> exn + bytes.
Variable Context : Type.

Implicit Type O : oracle StreamingBody DataFrame Report.
Implicit Types h tr : list (io_event StreamingBody DataFrame Report).

Lemma handle_records_match (record : s3_record) (rest : list s3_record) :
  matches record = true ->
  @handle_records StreamingBody DataFrame Report encode_utf8 (record :: rest)
  = process_record encode_utf8 (s3_bucket_name record) (s3_object_key record).
Proof.
  unfold matches. intros Hm. simpl. now rewrite Hm.
Qed.

Lemma handle_records_skip O h
    (record : s3_record) (rest : list s3_record) :
  matches record = false ->
  exec O h (handle_records encode_utf8 (record :: rest))
  = (skipped record
       :: trace_of O (skipped record :: h) (handle_records encode_utf8 rest),
     outcome_of O (skipped record :: h) (handle_records encode_utf8 rest)).
Proof.
  unfold matches, trace_of, outcome_of, skipped. intros Hm.
  simpl. rewrite Hm. simpl.
  now destruct (exec O _ (handle_records encode_utf8 rest)).
Qed.

(** A run of the loop is a row of skipped records followed either by the end
    of the batch or by the run of the first record that matches. *)
Lemma handle_records_run
    O (P : list s3_record -> list (io_event StreamingBody DataFrame Report) ->
             outcome response -> Prop) :
  P [] [] (Returned no_files_response) ->
  (forall record rest tr out,
      matches record = false -> P rest tr out ->
      P (record :: rest) (skipped record :: tr) out) ->
  (forall record rest h,
      matches record = true ->
      P (record :: rest)
        (trace_of O h (process_record encode_utf8 (s3_bucket_name record)
                                      (s3_object_key record)))
        (outcome_of O h (process_record encode_utf8 (s3_bucket_name record)
                                        (s3_object_key record)))) ->
  forall records h,
    P records (trace_of O h (handle_records encode_utf8 records))
              (outcome_of O h (handle_records encode_utf8 records)).
Proof.
  intros Hnil Hskip Hmatch records.
  induction records as [| record rest IH]; intros h.
  - exact Hnil.
  - destruct (matches record) eqn:Hm.
    + rewrite (handle_records_match record rest Hm). now apply Hmatch.
    + unfold trace_of, outcome_of.
      rewrite (handle_records_skip O h record rest Hm). simpl.
      apply Hskip; [exact Hm | apply IH].
Qed.

(** The analysis step is the library call and nothing else: it returns what
    Evidently returns and raises what Evidently raises. *)
Lemma generate_drift_report_run O h
    (reference_data current_data : DataFrame) :
  exec O h (generate_drift_report reference_data current_data)
  = let c := ReportRun [DataDriftPreset] reference_data current_data in
    match answer O h _ c with
    | inl e => ([EvCall c (inl e)], Raised e)
    | inr report => ([EvCall c (inr report)], Returned report)
    end.
Proof.
  unfold generate_drift_report. simpl.
  now destruct (answer O h Report _).
Qed.

(** [save_report_to_s3] returns the very string it handed to [put_object]. *)
Lemma save_report_to_s3_returns_body O h
    (report : Report) (bucket key html : string) :
  outcome_of O h (save_report_to_s3 report bucket key) = Returned html ->
  stored (trace_of O h (save_report_to_s3 report bucket key))
  = [(bucket, key, html, "text/html")].
Proof.
  unfold outcome_of, trace_of, save_report_to_s3. simpl.
  repeat answer_cases; intros Hret; inversion Hret; subst; reflexivity.
Qed.

(** Records that do not name [dq6-cur-data-s3] leave one printed line each
    and nothing else; the loop then goes on with the records behind them. *)
Lemma handle_records_skip_all O (before rest : list s3_record) :
  Forall (fun record => matches record = false) before ->
  forall h,
    exec O h (handle_records encode_utf8 (before ++ rest)%list)
    = ((map skipped before
          ++ trace_of O (rev (map skipped before) ++ h)
               (handle_records encode_utf8 rest))%list,
       outcome_of O (rev (map skipped before) ++ h)%list
         (handle_records encode_utf8 rest)).
Proof.
  induction 1 as [| record before Hm _ IH]; intros h.
  - unfold trace_of, outcome_of. simpl. now destruct (exec O h _).
  - simpl app. rewrite (handle_records_skip O h record _ Hm).
    unfold trace_of, outcome_of. rewrite IH.
    unfold trace_of, outcome_of. simpl.
    now rewrite <- app_assoc.
Qed.

Lemma skipped_makes_no_call (records : list s3_record) :
  @calls StreamingBody DataFrame Report (map skipped records) = [].
Proof.
  induction records as [| record rest IH]; simpl; auto.
Qed.

(** Claim C5.  Records that do not name the bucket [dq6-cur-data-s3] are only
    logged.  A batch made of such records makes the handler print one
    "skipping" line per record, make no outside call at all (no [get_object],
    no [put_object], no mail) and return the "No files processed" answer; in
    front of other records they add their printed lines and the run goes on
    with what follows them. *)
Theorem unexpected_source_is_ignored
    O h (before rest : list s3_record) (context : Context) :
  Forall (fun record => s3_bucket_name record <> CUR_DATA_BUCKET) before ->
  exec O h (lambda_handler encode_utf8 {| Records := before |} context)
  = (map skipped before, Returned no_files_response)
  /\ @calls StreamingBody DataFrame Report (map skipped before) = []
  /\ exec O h (lambda_handler encode_utf8
                 {| Records := (before ++ rest)%list |} context)
     = ((map skipped before
           ++ trace_of O (rev (map skipped before) ++ h)
                (lambda_handler encode_utf8 {| Records := rest |} context))%list,
        outcome_of O (rev (map skipped before) ++ h)%list
          (lambda_handler encode_utf8 {| Records := rest |} context)).
Proof.
  intros Hall. unfold lambda_handler. simpl Records.
  assert (Hskip : Forall (fun record => matches record = false) before).
  { eapply Forall_impl; [| exact Hall].
    intros record Hne. unfold matches. now apply String.eqb_neq. }
  repeat split.
  - pose proof (handle_records_skip_all O before [] Hskip h) as Hrun.
    rewrite app_nil_r in Hrun. rewrite Hrun.
    unfold trace_of, outcome_of. simpl. now rewrite app_nil_r.
  - apply skipped_makes_no_call.
  - now apply handle_records_skip_all.
Qed.

(** Claim C4.  When a call made by [load_data_from_s3] raises, for the
    reference or for the current data set, be it [get_object] (object not
    found) or [read_csv] (content that does not parse), the handler ends with
    that exception; up to that point it has called nothing but the loader's
    two operations, so no [put_object] was issued, nothing is stored and no
    mail was sent. *)
Theorem loading_failure_leaves_no_artifact
    O h (event : s3_event) (context : Context)
    (o : op) (e : exn) :
  failure (trace_of O h (lambda_handler encode_utf8 event context)) = Some (o, e) ->
  loader_op o = true ->
  outcome_of O h (lambda_handler encode_utf8 event context) = Raised e
  /\ forallb loader_op
        (calls (trace_of O h (lambda_handler encode_utf8 event context))) = true
  /\ puts (trace_of O h (lambda_handler encode_utf8 event context)) = []
  /\ stored (trace_of O h (lambda_handler encode_utf8 event context)) = []
  /\ sends (trace_of O h (lambda_handler encode_utf8 event context)) = [].
Proof.
  unfold lambda_handler. destruct event as [records]. simpl Records.
  revert h.
  apply (handle_records_run O (fun _ tr out =>
    failure tr = Some (o, e) -> loader_op o = true ->
    out = Raised e /\ forallb loader_op (calls tr) = true
    /\ puts tr = [] /\ stored tr = [] /\ sends tr = [])).
  - discriminate.
  - intros record rest tr out _ IH. simpl. exact IH.
  - intros record rest h _.
    run_record; intros Hf Hl; inversion Hf; subst;
      try discriminate Hl; repeat split; reflexivity.
Qed.

(** Claim C9.  Whatever the batch holds, the first record that names
    [dq6-cur-data-s3] decides the run, and the only objects ever asked of S3
    are [ref.csv] in [dq6-ref-data-s3], first, and then the record's own key
    in [dq6-cur-data-s3]; the second request is made exactly when the
    reference was fetched and parsed.  A run that returns a report made
    both requests. *)
Theorem reference_is_always_ref_csv
    O h (event : s3_event) (context : Context)
    (record : s3_record) :
  find matches (Records event) = Some record ->
  let tr := trace_of O h (lambda_handler encode_utf8 event context) in
  (gets tr = [("dq6-ref-data-s3", "ref.csv")]
   \/ gets tr = [("dq6-ref-data-s3", "ref.csv");
                 ("dq6-cur-data-s3", s3_object_key record)])
  /\ (forall res,
      outcome_of O h (lambda_handler encode_utf8 event context) = Returned res ->
      gets tr = [("dq6-ref-data-s3", "ref.csv");
                 ("dq6-cur-data-s3", s3_object_key record)]).
Proof.
  unfold lambda_handler. destruct event as [records]. simpl Records.
  revert h.
  apply (handle_records_run O (fun records tr out =>
    find matches records = Some record ->
    (gets tr = [("dq6-ref-data-s3", "ref.csv")]
     \/ gets tr = [("dq6-ref-data-s3", "ref.csv");
                   ("dq6-cur-data-s3", s3_object_key record)])
    /\ (forall res, out = Returned res ->
        gets tr = [("dq6-ref-data-s3", "ref.csv");
                   ("dq6-cur-data-s3", s3_object_key record)]))).
  - discriminate.
  - intros r rest tr out Hm IH. simpl. rewrite Hm. exact IH.
  - intros r rest h Hm. simpl. rewrite Hm. intros Hfind.
    inversion Hfind; subst r; clear Hfind.
    unfold matches in Hm. apply String.eqb_eq in Hm. rewrite Hm.
    run_record; (split; [auto | intros res Hres; try discriminate Hres; reflexivity]).
Qed.

(** Claim C3, as the code has it.  When the report was stored and
    [send_raw_email] then raises, the exception leaves the handler: the
    invocation fails with the delivery error and returns nothing, neither a
    report key nor a status.  The report stays in the store under the key
    built from the UUID drawn for this run. *)
Theorem delivery_failure_is_raised
    O h (event : s3_event) (context : Context)
    (e : exn) :
  failure (trace_of O h (lambda_handler encode_utf8 event context))
  = Some (send_raw_email, e) ->
  outcome_of O h (lambda_handler encode_utf8 event context) = Raised e
  /\ exists hex html,
       uuids (trace_of O h (lambda_handler encode_utf8 event context)) = [hex]
       /\ stored (trace_of O h (lambda_handler encode_utf8 event context))
          = [("dq6-reports-s3", "data_drift_report_" ++ hex ++ ".html",
              html, "text/html")].
Proof.
  unfold lambda_handler. destruct event as [records]. simpl Records.
  revert h.
  apply (handle_records_run O (fun _ tr out =>
    failure tr = Some (send_raw_email, e) ->
    out = Raised e
    /\ exists hex html,
         uuids tr = [hex]
         /\ stored tr = [("dq6-reports-s3", "data_drift_report_" ++ hex ++ ".html",
                          html, "text/html")])).
  - discriminate.
  - intros record rest tr out _ IH. simpl. exact IH.
  - intros record rest h _.
    run_record; intros Hf; inversion Hf; subst.
    split; [reflexivity |].
    eexists _, _. split; reflexivity.
Qed.

(** Claim C10.  In a run that returns a report, exactly one object was
    stored, the HTML text under the key [data_drift_report_<uuid>.html] in
    [dq6-reports-s3]; exactly one mail was sent, and its single attachment
    carries the UTF-8 octets of that same text under the fixed file name
    [data_quality_report.html].  The returned body names the stored key. *)
Theorem attachment_is_the_stored_report
    O h (event : s3_event) (context : Context)
    (res : response) :
  existsb matches (Records event) = true ->
  outcome_of O h (lambda_handler encode_utf8 event context) = Returned res ->
  exists hex html octets msg email_response,
    stored (trace_of O h (lambda_handler encode_utf8 event context))
    = [("dq6-reports-s3", "data_drift_report_" ++ hex ++ ".html",
        html, "text/html")]
    /\ encode_utf8 html = inr octets
    /\ sends (trace_of O h (lambda_handler encode_utf8 event context))
       = [(Some "sagarpatiler@gmail.com", [Some "sagarpatiler@gmail.com"], msg)]
    /\ map (fun p => (disposition p, attached_bytes p)) (attachments msg)
       = [(Some "attachment; filename=data_quality_report.html", Some octets)]
    /\ res = {| statusCode := 200;
                body := json_dumps (JDict
                  [("message", JStr "Data drift detected, report generated, saved to S3, and emailed successfully");
                   ("report_key", JStr ("data_drift_report_" ++ hex ++ ".html"));
                   ("email_response", email_response)]) |}.
Proof.
  unfold lambda_handler. destruct event as [records]. simpl Records.
  revert h.
  apply (handle_records_run O (fun records tr out =>
    existsb matches records = true -> out = Returned res ->
    exists hex html octets msg email_response,
      stored tr = [("dq6-reports-s3", "data_drift_report_" ++ hex ++ ".html",
                    html, "text/html")]
      /\ encode_utf8 html = inr octets
      /\ sends tr
         = [(Some "sagarpatiler@gmail.com", [Some "sagarpatiler@gmail.com"], msg)]
      /\ map (fun p => (disposition p, attached_bytes p)) (attachments msg)
         = [(Some "attachment; filename=data_quality_report.html", Some octets)]
      /\ res = {| statusCode := 200;
                  body := json_dumps (JDict
                    [("message", JStr "Data drift detected, report generated, saved to S3, and emailed successfully");
                     ("report_key", JStr ("data_drift_report_" ++ hex ++ ".html"));
                     ("email_response", email_response)]) |})).
  - discriminate.
  - intros record rest tr out Hm IH. simpl. rewrite Hm. exact IH.
  - intros record rest h _ _.
    run_record; intros Hret; inversion Hret; subst; clear Hret.
    eexists _, _, _, _, _.
    repeat split; try reflexivity. exact Hencode.
Qed.

(** No batch makes the handler store or mail more than one report. *)
Lemma at_most_one_report
    O h (records : list s3_record) :
  length (puts (trace_of O h (handle_records encode_utf8 records))) <= 1
  /\ length (sends (trace_of O h (handle_records encode_utf8 records))) <= 1.
Proof.
  revert h.
  apply (handle_records_run O (fun _ tr _ =>
    length (puts tr) <= 1 /\ length (sends tr) <= 1)).
  - simpl. lia.
  - intros record rest tr out _ IH. simpl. exact IH.
  - intros record rest h _. run_record; lia.
Qed.

(** Claim C1, what the code does instead.  The [return] of the matching
    branch sits inside the loop: once a record names [dq6-cur-data-s3], the
    records after it are never looked at.  A batch runs exactly as the batch
    cut after its first matching record, and so stores and mails at most one
    report however many matching records it holds. *)
Theorem batch_stops_at_first_match
    O h (context : Context)
    (before : list s3_record) (record : s3_record) (rest : list s3_record) :
  Forall (fun r => matches r = false) before ->
  matches record = true ->
  let batch := {| Records := (before ++ record :: rest)%list |} in
  let cut := {| Records := (before ++ [record])%list |} in
  exec O h (lambda_handler encode_utf8 batch context)
  = exec O h (lambda_handler encode_utf8 cut context)
  /\ length (puts (trace_of O h (lambda_handler encode_utf8 batch context))) <= 1
  /\ length (sends (trace_of O h (lambda_handler encode_utf8 batch context))) <= 1.
Proof.
  intros Hbefore Hm batch cut. subst batch cut.
  unfold lambda_handler. simpl Records.
  split; [| apply at_most_one_report].
  revert h. induction Hbefore as [| r before Hr _ IH]; intros h.
  - simpl app. now rewrite !(handle_records_match record _ Hm).
  - simpl app. rewrite !(handle_records_skip O h r _ Hr).
    unfold trace_of, outcome_of. now rewrite IH.
Qed.

(** Claim C6, as the code has it.  Nothing of the configuration comes from
    outside: the handler does not depend on its [context]; every object it
    asks of S3 is [ref.csv] of [dq6-ref-data-s3] or lies in
    [dq6-cur-data-s3]; Evidently is always run with the bare
    [DataDriftPreset()], no threshold given; every report is stored in
    [dq6-reports-s3] as [data_drift_report_<uuid>.html]; every mail goes from
    and to [sagarpatiler@gmail.com]. *)
Theorem configuration_is_fixed_in_code
    O h (event : s3_event) (context context' : Context) :
  @lambda_handler StreamingBody DataFrame Report encode_utf8 Context event context
  = lambda_handler encode_utf8 event context'
  /\ Forall (fun g => g = ("dq6-ref-data-s3", "ref.csv") \/ fst g = "dq6-cur-data-s3")
            (gets (trace_of O h (lambda_handler encode_utf8 event context)))
  /\ Forall (fun ms => ms = [DataDriftPreset])
            (analyses (trace_of O h (lambda_handler encode_utf8 event context)))
  /\ Forall (fun p => exists hex html,
                In hex (uuids (trace_of O h (lambda_handler encode_utf8 event context)))
                /\ p = ("dq6-reports-s3", "data_drift_report_" ++ hex ++ ".html",
                        html, "text/html"))
            (puts (trace_of O h (lambda_handler encode_utf8 event context)))
  /\ Forall (fun s => fst (fst s) = Some "sagarpatiler@gmail.com"
                      /\ snd (fst s) = [Some "sagarpatiler@gmail.com"])
            (sends (trace_of O h (lambda_handler encode_utf8 event context))).
Proof.
  split; [reflexivity |].
  unfold lambda_handler. destruct event as [records]. simpl Records.
  revert h.
  apply (handle_records_run O (fun _ tr _ =>
    Forall (fun g => g = ("dq6-ref-data-s3", "ref.csv") \/ fst g = "dq6-cur-data-s3")
           (gets tr)
    /\ Forall (fun ms => ms = [DataDriftPreset]) (analyses tr)
    /\ Forall (fun p => exists hex html,
                  In hex (uuids tr)
                  /\ p = ("dq6-reports-s3", "data_drift_report_" ++ hex ++ ".html",
                          html, "text/html"))
              (puts tr)
    /\ Forall (fun s => fst (fst s) = Some "sagarpatiler@gmail.com"
                        /\ snd (fst s) = [Some "sagarpatiler@gmail.com"])
              (sends tr))).
  - simpl. repeat split; constructor.
  - intros record rest tr out _ IH. simpl. exact IH.
  - intros record rest h Hm.
    unfold matches in Hm. apply String.eqb_eq in Hm.
    run_record; repeat split;
      repeat (constructor; simpl; auto);
      eexists _, _; (split; [left; reflexivity | reflexivity]).
Qed.

(** ** Further properties of the run *)

(** The handler never reorders, repeats or retries a step: the calls of any
    run are an initial part of the fixed sequence fetch reference, parse it,
    fetch current, parse it, analyse, render, store, mail.  So nothing is
    analysed before both data sets are parsed, nothing is stored before the
    analysis, and no mail is attempted before [put_object]. *)
Theorem calls_follow_the_pipeline
    O h (event : s3_event) (context : Context) :
  exists rest,
    pipeline
    = (calls (trace_of O h (lambda_handler encode_utf8 event context)) ++ rest)%list.
Proof.
  unfold lambda_handler. destruct event as [records]. simpl Records.
  revert h.
  apply (handle_records_run O (fun _ tr _ =>
    exists rest, pipeline = (calls tr ++ rest)%list)).
  - exists pipeline. reflexivity.
  - intros record rest tr out _ IH. simpl. exact IH.
  - intros record rest h _.
    run_record; eexists; unfold pipeline; simpl; reflexivity.
Qed.


(** What a returned value tells.  The handler returns only when no call
    raised, always with status 200.  It returns the "No files processed"
    answer, after no call at all, exactly when no record names
    [dq6-cur-data-s3]; otherwise all eight calls were made, and the answer
    carries the key built from the UUID of the run and, unchanged, what SES
    answered. *)
Theorem returned_means_completed
    O h (event : s3_event) (context : Context) (res : response) :
  outcome_of O h (lambda_handler encode_utf8 event context) = Returned res ->
  let tr := trace_of O h (lambda_handler encode_utf8 event context) in
  failed tr = []
  /\ statusCode res = 200%Z
  /\ ((existsb matches (Records event) = false
       /\ calls tr = [] /\ res = no_files_response)
      \/ (existsb matches (Records event) = true
          /\ calls tr = pipeline
          /\ exists hex receipt,
               uuids tr = [hex] /\ delivered tr = [receipt]
               /\ res = report_response ("data_drift_report_" ++ hex ++ ".html")
                                        receipt)).
Proof.
  unfold lambda_handler. destruct event as [records]. simpl Records.
  revert h.
  apply (handle_records_run O (fun records tr out =>
    out = Returned res ->
    failed tr = []
    /\ statusCode res = 200%Z
    /\ ((existsb matches records = false
         /\ calls tr = [] /\ res = no_files_response)
        \/ (existsb matches records = true
            /\ calls tr = pipeline
            /\ exists hex receipt,
                 uuids tr = [hex] /\ delivered tr = [receipt]
                 /\ res = report_response ("data_drift_report_" ++ hex ++ ".html")
                                          receipt)))).
  - intros Hret. inversion Hret; subst. repeat split. left. repeat split.
  - intros record rest tr out Hm IH Hret. simpl. rewrite Hm. simpl. now apply IH.
  - intros record rest h Hm. simpl existsb. rewrite Hm. simpl orb.
    run_record; intros Hret; inversion Hret; subst; clear Hret.
    repeat split. right. repeat split.
    eexists _, _. repeat split.
Qed.

(** The handler never mails a report it has not stored: whenever
    [send_raw_email] is called, answered or not, exactly one object is in the
    store, under [dq6-reports-s3], and the single attachment of the mail
    carries the UTF-8 octets of that object's body. *)
Theorem mail_carries_a_stored_report
    O h (event : s3_event) (context : Context) :
  Forall (fun mail =>
            exists key html octets,
              stored (trace_of O h (lambda_handler encode_utf8 event context))
              = [("dq6-reports-s3", key, html, "text/html")]
              /\ encode_utf8 html = inr octets
              /\ map attached_bytes (attachments (snd mail)) = [Some octets])
         (sends (trace_of O h (lambda_handler encode_utf8 event context))).
Proof.
  unfold lambda_handler. destruct event as [records]. simpl Records.
  revert h.
  apply (handle_records_run O (fun _ tr _ =>
    Forall (fun mail =>
              exists key html octets,
                stored tr = [("dq6-reports-s3", key, html, "text/html")]
                /\ encode_utf8 html = inr octets
                /\ map attached_bytes (attachments (snd mail)) = [Some octets])
           (sends tr))).
  - constructor.
  - intros record rest tr out _ IH. simpl. exact IH.
  - intros record rest h _.
    run_record; repeat constructor;
      eexists _, _, _; (split; [reflexivity | split; [eassumption | reflexivity]]).
Qed.

(** A failure anywhere before the mail step, in loading, in the analysis, in
    rendering or in [put_object] itself, leaves the store as it was and sends
    no mail. *)
Theorem failure_before_mail_leaves_nothing
    O h (event : s3_event) (context : Context) (o : op) (e : exn) :
  failure (trace_of O h (lambda_handler encode_utf8 event context)) = Some (o, e) ->
  o <> send_raw_email ->
  outcome_of O h (lambda_handler encode_utf8 event context) = Raised e
  /\ stored (trace_of O h (lambda_handler encode_utf8 event context)) = []
  /\ sends (trace_of O h (lambda_handler encode_utf8 event context)) = [].
Proof.
  unfold lambda_handler. destruct event as [records]. simpl Records.
  revert h.
  apply (handle_records_run O (fun _ tr out =>
    failure tr = Some (o, e) -> o <> send_raw_email ->
    out = Raised e /\ stored tr = [] /\ sends tr = [])).
  - discriminate.
  - intros record rest tr out _ IH. simpl. exact IH.
  - intros record rest h _.
    run_record; intros Hf Hne; inversion Hf; subst;
      try (exfalso; apply Hne; reflexivity); repeat split; reflexivity.
Qed.

(** The stored report is the rendering of the analysis of the right data.
    Whenever [put_object] is called, the body it is given is what [get_html]
    returned for the report that Evidently returned for the frame parsed from
    [ref.csv] of [dq6-ref-data-s3], as reference, and the frame parsed from
    the uploaded object of [dq6-cur-data-s3], as current; the two are never
    swapped and no other object is read. *)
Theorem stored_report_is_the_analysis_of_the_upload
    O h (event : s3_event) (context : Context) :
  let tr := trace_of O h (lambda_handler encode_utf8 event context) in
  Forall (fun p =>
            exists record body_ref body_cur reference_data current_data
                   report html hex,
              find matches (Records event) = Some record
              /\ fetched tr = [("dq6-ref-data-s3", "ref.csv", body_ref);
                               ("dq6-cur-data-s3", s3_object_key record, body_cur)]
              /\ parsed tr = [(body_ref, reference_data); (body_cur, current_data)]
              /\ analysed tr = [(reference_data, current_data, report)]
              /\ rendered tr = [(report, html)]
              /\ uuids tr = [hex]
              /\ p = ("dq6-reports-s3", "data_drift_report_" ++ hex ++ ".html",
                      html, "text/html"))
         (puts tr).
Proof.
  unfold lambda_handler. destruct event as [records]. simpl Records.
  revert h.
  apply (handle_records_run O (fun records tr _ =>
    Forall (fun p =>
              exists record body_ref body_cur reference_data current_data
                     report html hex,
                find matches records = Some record
                /\ fetched tr = [("dq6-ref-data-s3", "ref.csv", body_ref);
                                 ("dq6-cur-data-s3", s3_object_key record, body_cur)]
                /\ parsed tr = [(body_ref, reference_data); (body_cur, current_data)]
                /\ analysed tr = [(reference_data, current_data, report)]
                /\ rendered tr = [(report, html)]
                /\ uuids tr = [hex]
                /\ p = ("dq6-reports-s3", "data_drift_report_" ++ hex ++ ".html",
                        html, "text/html"))
           (puts tr))).
  - constructor.
  - intros record rest tr out Hm IH. simpl. rewrite Hm. exact IH.
  - intros record rest h Hm. simpl find. rewrite Hm.
    unfold matches in Hm. apply String.eqb_eq in Hm.
    run_record; repeat constructor;
      exists record; rewrite Hm; eexists _, _, _, _, _, _, _;
      repeat split; reflexivity.
Qed.

(** *** The helper functions on their own *)

(** [save_report_to_s3] returns a text exactly when it has stored that text
    under the bucket and key it was given, as [text/html]: it never returns a
    report that [put_object] refused, and it calls [put_object] at most once.
    A run that raised stored nothing. *)
Theorem save_report_to_s3_returns_what_it_stored
    O h (report : Report) (bucket key : string) :
  let tr := trace_of O h (save_report_to_s3 report bucket key) in
  (forall html,
      outcome_of O h (save_report_to_s3 report bucket key) = Returned html
      <-> stored tr = [(bucket, key, html, "text/html")])
  /\ (forall e,
      outcome_of O h (save_report_to_s3 report bucket key) = Raised e ->
      stored tr = [])
  /\ length (puts tr) <= 1.
Proof.
  unfold outcome_of, trace_of, save_report_to_s3. simpl.
  repeat answer_cases.
  - split; [| split]; [intros html; split; discriminate | reflexivity | lia].
  - split; [| split]; [intros html; split; discriminate | reflexivity | lia].
  - split; [| split]; [| discriminate | lia].
    intros html; split; intros Hx; inversion Hx; subst; reflexivity.
Qed.


(** *** Report keys *)

Lemma length_append (a s : string) :
  String.length (a ++ s) = String.length a + String.length s.
Proof.
  induction a as [| c a IH]; simpl; [reflexivity | now rewrite IH].
Qed.

Lemma append_cancel_r (a b s : string) : a ++ s = b ++ s -> a = b.
Proof.
  revert b. induction a as [| c a IH]; intros [| d b] Heq; simpl in Heq.
  - reflexivity.
  - apply (f_equal String.length) in Heq. simpl in Heq.
    rewrite length_append in Heq. lia.
  - apply (f_equal String.length) in Heq. simpl in Heq.
    rewrite length_append in Heq. lia.
  - injection Heq as Hc Hrest. subst d. f_equal. now apply IH.
Qed.

(** The name of a report determines the UUID it was built from. *)
Lemma report_key_name_injective (hex hex' : string) :
  report_key_name hex = report_key_name hex' -> hex = hex'.
Proof.
  unfold report_key_name. intros Heq.
  simpl in Heq. repeat (injection Heq as Heq).
  now apply append_cancel_r in Heq.
Qed.

(** Every key [put_object] is called with is built from the one UUID drawn
    in the run. *)
Lemma put_keys_come_from_the_uuid O h (records : list s3_record) :
  Forall (fun key => exists hex,
            uuids (trace_of O h (handle_records encode_utf8 records)) = [hex]
            /\ key = report_key_name hex)
         (put_keys (trace_of O h (handle_records encode_utf8 records))).
Proof.
  revert h.
  apply (handle_records_run O (fun _ tr _ =>
    Forall (fun key => exists hex, uuids tr = [hex] /\ key = report_key_name hex)
           (put_keys tr))).
  - constructor.
  - intros record rest tr out _ IH. exact IH.
  - intros record rest h _. unfold put_keys.
    run_record; repeat constructor; eexists; split; reflexivity.
Qed.

(** Runs that drew different UUIDs never write to the same key: a report is
    not overwritten by the report of another invocation, whatever the events
    and whatever the services answered. *)
Theorem distinct_uuids_give_distinct_keys
    O h (event : s3_event) (context : Context)
    O' h' (event' : s3_event) (context' : Context) (hex hex' : string) :
  uuids (trace_of O h (lambda_handler encode_utf8 event context)) = [hex] ->
  uuids (trace_of O' h' (lambda_handler encode_utf8 event' context')) = [hex'] ->
  hex <> hex' ->
  forall key,
    In key (put_keys (trace_of O h (lambda_handler encode_utf8 event context))) ->
    ~ In key (put_keys (trace_of O' h' (lambda_handler encode_utf8 event' context'))).
Proof.
  unfold lambda_handler. intros Hu Hu' Hne key Hin Hin'.
  pose proof (put_keys_come_from_the_uuid O h (Records event)) as Hk.
  pose proof (put_keys_come_from_the_uuid O' h' (Records event')) as Hk'.
  rewrite Forall_forall in Hk, Hk'.
  destruct (Hk key Hin) as (u & Hu1 & Hkey).
  destruct (Hk' key Hin') as (u' & Hu1' & Hkey').
  rewrite Hu in Hu1. rewrite Hu' in Hu1'.
  inversion Hu1; inversion Hu1'; subst u u'.
  apply Hne. apply report_key_name_injective. congruence.
Qed.

(** *** The log *)

Lemma prints_of_process_record O h (bucket_name object_key : string) :
  prints (trace_of O h (process_record encode_utf8 bucket_name object_key))
  = [processing_message object_key bucket_name].
Proof.
  run_record; reflexivity.
Qed.

(** The log holds one line per record looked at and nothing else: a
    "skipping" line for each record in front of the first one that names
    [dq6-cur-data-s3], then the "Processing file" line of that record, which
    is printed before any call is made.  Nothing is logged about how the run
    went, and nothing about the records behind. *)
Theorem log_is_one_line_per_record_looked_at
    O h (context : Context)
    (before : list s3_record) (record : s3_record) (rest : list s3_record) :
  Forall (fun r => matches r = false) before ->
  matches record = true ->
  prints (trace_of O h (lambda_handler encode_utf8
                          {| Records := (before ++ record :: rest)%list |} context))
  = (map (fun r => skipping_message (s3_object_key r)) before
       ++ [processing_message (s3_object_key record) (s3_bucket_name record)])%list.
Proof.
  intros Hbefore Hm. unfold lambda_handler. simpl Records.
  revert h. induction Hbefore as [| r before Hr _ IH]; intros h.
  - simpl app. rewrite (handle_records_match record rest Hm).
    apply prints_of_process_record.
  - simpl app. unfold trace_of.
    rewrite (handle_records_skip O h r _ Hr). simpl.
    f_equal. apply IH.
Qed.

End Properties.

(** ** The theorems at concrete runs *)

Lemma unexpected_source_is_ignored_witness :
  Forall (fun record => s3_bucket_name record <> CUR_DATA_BUCKET)
         [upload "dq6-ref-data-s3" "ref.csv"; upload "uploads-eu" "day1.csv"]
  /\ run healthy
       {| Records := [upload "dq6-ref-data-s3" "ref.csv";
                      upload "uploads-eu" "day1.csv"] |} []
     = ([EvPrint "File ref.csv is not in the expected bucket (dq6-cur-data-s3), skipping.";
         EvPrint "File day1.csv is not in the expected bucket (dq6-cur-data-s3), skipping."],
        Returned no_files_response).
Proof.
  assert (Hne : Forall (fun record => s3_bucket_name record <> CUR_DATA_BUCKET)
                  [upload "dq6-ref-data-s3" "ref.csv"; upload "uploads-eu" "day1.csv"]).
  { repeat constructor; simpl; discriminate. }
  split; [exact Hne |].
  exact (proj1 (unexpected_source_is_ignored string string string
                  encode_latin1_as_utf8 settings (oracle_of healthy) []
                  _ [] [] Hne)).
Defined.

Lemma loading_failure_leaves_no_artifact_witness :
  failure (fst (run healthy day3_missing [])) = Some (get_object, no_such_key)
  /\ snd (run healthy day3_missing []) = Raised no_such_key
  /\ puts (fst (run healthy day3_missing [])) = []
  /\ stored (fst (run healthy day3_missing [])) = []
  /\ sends (fst (run healthy day3_missing [])) = [].
Proof.
  assert (Hf : failure (fst (run healthy day3_missing []))
               = Some (get_object, no_such_key)) by reflexivity.
  split; [exact Hf |].
  pose proof (loading_failure_leaves_no_artifact string string string
                encode_latin1_as_utf8 settings (oracle_of healthy) []
                day3_missing [] get_object no_such_key Hf eq_refl) as H.
  repeat split; apply H.
Defined.

Lemma reference_is_always_ref_csv_witness :
  find matches (Records burst) = Some (upload "dq6-cur-data-s3" "day1.csv")
  /\ gets (fst (run healthy burst []))
     = [("dq6-ref-data-s3", "ref.csv"); ("dq6-cur-data-s3", "day1.csv")].
Proof.
  split; [reflexivity |].
  refine (proj2 (reference_is_always_ref_csv string string string
                   encode_latin1_as_utf8 settings (oracle_of healthy) []
                   burst [] (upload "dq6-cur-data-s3" "day1.csv") eq_refl)
                _ _).
  vm_compute. reflexivity.
Defined.

Lemma delivery_failure_is_raised_witness :
  failure (fst (run ses_down burst [])) = Some (send_raw_email, message_rejected)
  /\ snd (run ses_down burst []) = Raised message_rejected.
Proof.
  split; [reflexivity |].
  exact (proj1 (delivery_failure_is_raised string string string
                  encode_latin1_as_utf8 settings (oracle_of ses_down) []
                  burst [] message_rejected eq_refl)).
Defined.

Lemma attachment_is_the_stored_report_witness :
  exists hex html octets msg email_response,
    stored (fst (run healthy burst []))
    = [("dq6-reports-s3", "data_drift_report_" ++ hex ++ ".html",
        html, "text/html")]
    /\ encode_latin1_as_utf8 html = inr octets
    /\ sends (fst (run healthy burst []))
       = [(Some "sagarpatiler@gmail.com", [Some "sagarpatiler@gmail.com"], msg)]
    /\ map (fun p => (disposition p, attached_bytes p)) (attachments msg)
       = [(Some "attachment; filename=data_quality_report.html", Some octets)]
    /\ snd (run healthy burst [])
       = Returned
           {| statusCode := 200;
              body := json_dumps (JDict
                [("message", JStr "Data drift detected, report generated, saved to S3, and emailed successfully");
                 ("report_key", JStr ("data_drift_report_" ++ hex ++ ".html"));
                 ("email_response", email_response)]) |}.
Proof.
  destruct (snd (run healthy burst [])) as [res | e] eqn:Hout;
    [| vm_compute in Hout; discriminate Hout].
  destruct (attachment_is_the_stored_report string string string
              encode_latin1_as_utf8 settings (oracle_of healthy) []
              burst [] res eq_refl Hout)
    as (hex & html & octets & msg & email_response & H1 & H2 & H3 & H4 & H5).
  exists hex, html, octets, msg, email_response.
  repeat split; try assumption.
  now rewrite <- H5.
Defined.

Lemma batch_stops_at_first_match_witness :
  matches (upload "dq6-cur-data-s3" "day1.csv") = true
  /\ matches (upload "dq6-cur-data-s3" "day2.csv") = true
  /\ run healthy burst []
     = run healthy {| Records := [upload "dq6-cur-data-s3" "day1.csv"] |} []
  /\ length (puts (fst (run healthy burst []))) <= 1.
Proof.
  split; [reflexivity |]. split; [reflexivity |].
  pose proof (batch_stops_at_first_match string string string
                encode_latin1_as_utf8 settings (oracle_of healthy) [] []
                [] (upload "dq6-cur-data-s3" "day1.csv")
                [upload "dq6-cur-data-s3" "day2.csv"]
                (Forall_nil _) eq_refl) as H.
  split; apply H.
Defined.

(** ** Where the code departs from the specification *)

(** SES refuses the mail after the report was stored: the handler does not
    return a degraded success, it does not return at all. *)
Lemma refused_mail_is_no_degraded_success :
  stored (fst (run ses_down day1 []))
  = [("dq6-reports-s3",
      "data_drift_report_9f1c2d3e4b5a69788796a5b4c3d2e1f0.html",
      "<html>drift of [age=80,81,82,83] against [age=20,21,22,23]</html>",
      "text/html")]
  /\ failure (fst (run ses_down day1 [])) = Some (send_raw_email, message_rejected)
  /\ snd (run ses_down day1 []) = Raised message_rejected
  /\ ~ (exists res, snd (run ses_down day1 []) = Returned res).
Proof.
  repeat split; try reflexivity.
  intros [res Hres]. vm_compute in Hres. discriminate Hres.
Qed.

(** Settings handed over from outside change nothing: an upload to the
    wished bucket is skipped, and a run for the built-in bucket still mails
    the built-in address, stores under the built-in name and runs Evidently
    with its defaults, exactly as without any setting. *)
Lemma wished_settings_are_not_used :
  In ("RECIPIENT", "ops@example.com") wished
  /\ In ("CUR_DATA_BUCKET", "uploads-eu") wished
  /\ run healthy {| Records := [upload "uploads-eu" "day1.csv"] |} wished
     = ([EvPrint "File day1.csv is not in the expected bucket (dq6-cur-data-s3), skipping."],
        Returned no_files_response)
  /\ map (fun s => snd (fst s)) (sends (fst (run healthy day1 wished)))
     = [[Some "sagarpatiler@gmail.com"]]
  /\ ~ In [Some "ops@example.com"]
          (map (fun s => snd (fst s)) (sends (fst (run healthy day1 wished))))
  /\ map (fun p => snd (fst (fst p))) (puts (fst (run healthy day1 wished)))
     = ["data_drift_report_9f1c2d3e4b5a69788796a5b4c3d2e1f0.html"]
  /\ analyses (fst (run healthy day1 wished)) = [[DataDriftPreset]]
  /\ run healthy day1 wished = run healthy day1 [].
Proof.
  repeat split; try reflexivity.
  - simpl. tauto.
  - simpl. tauto.
  - vm_compute. intros [H | []]. discriminate H.
Qed.

(** ** The further properties at concrete runs *)


Lemma returned_means_completed_witness :
  snd (run healthy burst [])
  = Returned (report_response
                "data_drift_report_9f1c2d3e4b5a69788796a5b4c3d2e1f0.html"
                (JDict [("MessageId", JStr "0100018b-0001")]))
  /\ failed (fst (run healthy burst [])) = []
  /\ statusCode (report_response
                   "data_drift_report_9f1c2d3e4b5a69788796a5b4c3d2e1f0.html"
                   (JDict [("MessageId", JStr "0100018b-0001")])) = 200%Z.
Proof.
  assert (Hret : snd (run healthy burst [])
                 = Returned (report_response
                     "data_drift_report_9f1c2d3e4b5a69788796a5b4c3d2e1f0.html"
                     (JDict [("MessageId", JStr "0100018b-0001")])))
    by reflexivity.
  split; [exact Hret |].
  pose proof (returned_means_completed string string string
                encode_latin1_as_utf8 settings (oracle_of healthy) []
                burst [] _ Hret) as H.
  split; apply H.
Defined.

Lemma failure_before_mail_leaves_nothing_witness :
  failure (fst (exec store_down [] (handler day1 [])))
  = Some (put_object, service_unavailable)
  /\ put_object <> send_raw_email
  /\ snd (exec store_down [] (handler day1 [])) = Raised service_unavailable
  /\ stored (fst (exec store_down [] (handler day1 []))) = []
  /\ sends (fst (exec store_down [] (handler day1 []))) = [].
Proof.
  split; [reflexivity |]. split; [discriminate |].
  apply (failure_before_mail_leaves_nothing string string string
           encode_latin1_as_utf8 settings store_down [] day1 []
           put_object service_unavailable eq_refl).
  discriminate.
Defined.

Lemma distinct_uuids_give_distinct_keys_witness :
  uuids (fst (run healthy day1 [])) = ["9f1c2d3e4b5a69788796a5b4c3d2e1f0"]
  /\ uuids (fst (run healthy_later day1 [])) = ["0a1b2c3d4e5f60718293a4b5c6d7e8f9"]
  /\ put_keys (fst (run healthy day1 []))
     = ["data_drift_report_9f1c2d3e4b5a69788796a5b4c3d2e1f0.html"]
  /\ ~ In "data_drift_report_9f1c2d3e4b5a69788796a5b4c3d2e1f0.html"
          (put_keys (fst (run healthy_later day1 []))).
Proof.
  split; [reflexivity |]. split; [reflexivity |]. split; [reflexivity |].
  apply (distinct_uuids_give_distinct_keys string string string
           encode_latin1_as_utf8 settings
           (oracle_of healthy) [] day1 []
           (oracle_of healthy_later) [] day1 []
           "9f1c2d3e4b5a69788796a5b4c3d2e1f0" "0a1b2c3d4e5f60718293a4b5c6d7e8f9"
           eq_refl eq_refl).
  - discriminate.
  - left. reflexivity.
Defined.

Lemma log_is_one_line_per_record_looked_at_witness :
  Forall (fun r => matches r = false) [upload "uploads-eu" "day0.csv"]
  /\ matches (upload "dq6-cur-data-s3" "day1.csv") = true
  /\ prints (fst (run healthy
       {| Records := [upload "uploads-eu" "day0.csv";
                      upload "dq6-cur-data-s3" "day1.csv";
                      upload "dq6-cur-data-s3" "day2.csv"] |} []))
     = ["File day0.csv is not in the expected bucket (dq6-cur-data-s3), skipping.";
        "Processing file: day1.csv from bucket: dq6-cur-data-s3"].
Proof.
  assert (Hb : Forall (fun r => matches r = false) [upload "uploads-eu" "day0.csv"]).
  { repeat constructor. }
  split; [exact Hb |]. split; [reflexivity |].
  exact (log_is_one_line_per_record_looked_at string string string
           encode_latin1_as_utf8 settings (oracle_of healthy) [] []
           [upload "uploads-eu" "day0.csv"]
           (upload "dq6-cur-data-s3" "day1.csv")
           [upload "dq6-cur-data-s3" "day2.csv"] Hb eq_refl).
Defined.
